(** * merge-me-action: the push event handler

    A shallow embedding of [src/eventHandlers/push/index.ts] and of the two
    regular expressions it matches with, followed by the properties of the
    handler: what [tryMerge] asks of the graph API and when, what the two
    payload parsers return, and what [pushHandle] lets escape. *)

From Stdlib Require Import NArith Ascii String.
From stdpp Require Import base option list gmap strings.

Local Open Scope nat_scope.

(** ** ECMAScript strings and the regular expressions of the handler *)

Module JS.

(** A string is its sequence of code points; the patterns below carry the
    [u] flag, so this is the unit the matcher steps by. *)
Definition char := N.
Definition jsstring := list char.

(** A literal of the source, for ASCII text. *)
Definition str (s : string) : jsstring :=
  N_of_ascii <$> list_ascii_of_string s.

(** LineTerminator: LF, CR, LS, PS. *)
Definition isLineTerminator (c : char) : bool :=
  ((c =? 0x0A) || (c =? 0x0D) || (c =? 0x2028) || (c =? 0x2029))%N.

(** WhiteSpace: TAB, VT, FF, SP, NBSP, ZWNBSP and the category Zs. *)
Definition isWhiteSpace (c : char) : bool :=
  ((c =? 0x09) || (c =? 0x0B) || (c =? 0x0C) || (c =? 0x20) || (c =? 0xA0)
   || (c =? 0xFEFF) || (c =? 0x1680) || ((0x2000 <=? c) && (c <=? 0x200A))
   || (c =? 0x202F) || (c =? 0x205F) || (c =? 0x3000))%N.

(** The escapes usable inside a character class: [\s] and [\S]. *)
Inductive ClassEscape := class_s | class_S.

Definition classEscapeMatches (e : ClassEscape) (c : char) : bool :=
  match e with
  | class_s => isWhiteSpace c || isLineTerminator c
  | class_S => negb (isWhiteSpace c || isLineTerminator c)
  end.

(** The fragment of the pattern syntax the handler uses. [Bol] and [Eol]
    are [^] and [$] without the [m] flag, [Dot] is [.] without the [s]
    flag, [Star] is the greedy [*], [Named] is [(?<name>...)]. *)
Inductive RegExp :=
| Bol
| Eol
| Chr (c : char)
| Dot
| Class (escapes : list ClassEscape)
| Star (r : RegExp)
| Cat (r1 r2 : RegExp)
| Named (name : string) (r : RegExp).

(** The text of a pattern, character by character, followed by [tl]. *)
Definition chars (s : string) (tl : RegExp) : RegExp :=
  foldr (fun c r => Cat (Chr (N_of_ascii c)) r) tl (list_ascii_of_string s).

(** The state of a match: the index reached, the input from there on, and
    the groups captured so far. *)
Record MatchState := mkState {
  endIndex : nat;
  rest : jsstring;
  captures : gmap string jsstring
}.

Definition Continuation := MatchState -> option (gmap string jsstring).

(** CharacterSetMatcher: one character, accepted by [p]. *)
Definition charSet (p : char -> bool) (x : MatchState) (k : Continuation)
  : option (gmap string jsstring) :=
  match rest x with
  | c :: cs =>
      if p c then k (mkState (S (endIndex x)) cs (captures x)) else None
  | [] => None
  end.

(** RepeatMatcher for the greedy [*]: one more iteration of [m] is tried
    before the continuation, and an iteration that consumed nothing is
    refused. Every accepted iteration consumes a character, so the number
    of characters left bounds the loop; this is what [fuel] starts at.
    Neither pattern of the handler has a group under a [*], so the
    captures of an earlier iteration need no reset. *)
Fixpoint repeatMatcher
  (m : MatchState -> Continuation -> option (gmap string jsstring))
  (k : Continuation) (fuel : nat) (x : MatchState)
  : option (gmap string jsstring) :=
  match fuel with
  | O => k x
  | S fuel' =>
      match
        m x (fun y =>
          if decide (endIndex y = endIndex x) then None
          else repeatMatcher m k fuel' y)
      with
      | Some groups => Some groups
      | None => k x
      end
  end.

(** The backtracking matcher, in continuation-passing style as the
    language definition gives it. *)
Fixpoint matcher (r : RegExp) (x : MatchState) (k : Continuation)
  {struct r} : option (gmap string jsstring) :=
  match r with
  | Bol => if decide (endIndex x = 0) then k x else None
  | Eol => match rest x with [] => k x | _ :: _ => None end
  | Chr c => charSet (N.eqb c) x k
  | Dot => charSet (fun c => negb (isLineTerminator c)) x k
  | Class escapes =>
      charSet (fun c => existsb (fun e => classEscapeMatches e c) escapes) x k
  | Cat r1 r2 => matcher r1 x (fun y => matcher r2 y k)
  | Named name r' =>
      matcher r' x (fun y =>
        k (mkState (endIndex y) (rest y)
             (<[name := take (endIndex y - endIndex x) (rest x)]>
                (captures y))))
  | Star r' => repeatMatcher (matcher r') k (length (rest x)) x
  end.

(** [RegExp.prototype.exec] for a pattern without the [g] and [y] flags:
    the first index, from 0 on, at which the pattern matches. The result
    is the [groups] object of the match, [None] is [null]. *)
Fixpoint execFrom (r : RegExp) (index : nat) (input : jsstring)
  : option (gmap string jsstring) :=
  match matcher r (mkState index input ∅) (fun y => Some (captures y)) with
  | Some groups => Some groups
  | None =>
      match input with
      | [] => None
      | _ :: input' => execFrom r (S index) input'
      end
  end.

(** The longest prefix of [s] whose characters all satisfy [p]. *)
Fixpoint take_while (p : char -> bool) (s : jsstring) : jsstring :=
  match s with
  | c :: cs => if p c then c :: take_while p cs else []
  | [] => []
  end.

(** [s.match(r)] *)
Definition match_ (s : jsstring) (r : RegExp) : option (gmap string jsstring) :=
  execFrom r 0 s.

End JS.

Import JS.

(** The pattern [^ (?<commitHeadline> .* ) [\s\S]* $] with the [u] flag,
    written here with spaces between its parts. *)
Definition COMMIT_HEADLINE_MATCHER : RegExp :=
  Cat Bol
    (Cat (Named "commitHeadline" (Star Dot))
       (Cat (Star (Class [class_s; class_S])) Eol)).

(** The pattern [^ refs\/heads\/ (?<name> .* ) $] with the [u] flag. *)
Definition SHORT_REFERENCE_MATCHER : RegExp :=
  Cat Bol (chars "refs/heads/" (Cat (Named "name" (Star Dot)) Eol)).


(** ** The data of the handler *)

Inductive MergeableState := CONFLICTING | MERGEABLE | UNKNOWN.
Inductive PullRequestState := CLOSED | MERGED | OPEN.
Inductive ReviewState :=
  APPROVED | CHANGES_REQUESTED | COMMENTED | DISMISSED | PENDING.

Record ReviewNode := { state : ReviewState }.
Record ReviewEdge := { node : ReviewNode }.

(** [interface PullRequestInformation]; an element of [reviewEdges] may be
    [undefined], which is [None]. *)
Record PullRequestInformation := {
  mergeableState : MergeableState;
  merged : bool;
  pullRequestId : jsstring;
  pullRequestState : PullRequestState;
  reviewEdges : list (option ReviewEdge)
}.

#[global] Instance MergeableState_eq_dec : EqDecision MergeableState.
Proof. solve_decision. Defined.
#[global] Instance PullRequestState_eq_dec : EqDecision PullRequestState.
Proof. solve_decision. Defined.
#[global] Instance ReviewState_eq_dec : EqDecision ReviewState.
Proof. solve_decision. Defined.

(** [a[i]] on an array whose elements may be [undefined]: out of range is
    [undefined] too. *)
Definition at_index {A} (a : list (option A)) (i : nat) : option A :=
  default None (a !! i).

(** The answer to the query [findPullRequestInfoAndReviews], as far as the
    handler reads it. [None] stands for a field that is [null] or absent; the
    node's own fields have the types [PullRequestInformation] gives them. *)
Module Graph.
Record Reviews := { edges : list (option ReviewEdge) }.
Record PullRequest := {
  id : jsstring;
  mergeable : MergeableState;
  merged : bool;
  reviews : Reviews;
  state : PullRequestState
}.
Record PullRequestConnection := { nodes : list PullRequest }.
Record Repository := { pullRequests : option PullRequestConnection }.
Record Response := { repository : option Repository }.
End Graph.

(** [context] of [@actions/github], as far as the handler reads it. A push
    payload may come without [commits]. *)
Record Commit := { message : jsstring }.
Record Pusher := { name : jsstring }.
Record Payload := {
  commits : option (list Commit);
  pusher : Pusher;
  ref : jsstring
}.
Record Repo := { owner : jsstring; repo : jsstring }.
Record Context := { payload : Payload; context_repo : Repo }.

(** ** The graph API and the log *)

Inductive MergeStrategy := MergeCommit | Squash | Rebase.

(** The documents sent to the API: the query of [../../graphql/queries] and
    the merge mutations, one per strategy. *)
Inductive Document :=
| findPullRequestInformationAndReviews
| mergePullRequest (strategy : MergeStrategy).

Record Query := {
  referenceName : jsstring;
  repositoryName : jsstring;
  repositoryOwner : jsstring
}.

Inductive Variables :=
| QueryVariables (query : Query)
| MergeVariables (commitHeadline pullRequestId : jsstring).

(** What can be thrown: the runtime's [TypeError] for a property read of
    [null] or [undefined], and whatever a request is rejected with. *)
Inductive Error :=
| TypeError
| RequestError (detail : jsstring).

(** [octokit]: the outcome of [graphql(document, variables)], an error or the
    data, [None] for [null]. The handler sends at most one query and then at
    most one mutation, and ignores what the mutation answers. *)
Record GitHub := {
  answer : Document -> Variables -> Error + option Graph.Response
}.

(** The texts the handler logs, by template. *)
Inductive Message :=
| NotMergeable (s : MergeableState)
    (* `Pull request is not in a mergeable state: ${mergeableState}.` *)
| AlreadyMerged
    (* `Pull request is already merged.` *)
| NotOpen (s : PullRequestState)
    (* `Pull request is not open: ${pullRequestState}.` *)
| NotCreatedBy (gitHubLogin : jsstring)
    (* `Pull request not created by ${gitHubLogin}, skipping.` *)
| UnableToFetch
    (* 'Unable to fetch pull request information.' *)
| FoundInformation (information : PullRequestInformation).
    (* `Found pull request information: ${JSON.stringify(...)}.` *)

(** What a run does to the outside, in order. *)
Inductive Event :=
| Info (m : Message)
| Warning (m : Message)
| Failure (e : Error)
| Request (document : Document) (variables : Variables).

(** A computation returns or throws, and leaves its events behind. *)
Definition M (A : Type) : Type := (Error + A) * list Event.

#[global] Instance M_ret : MRet M := λ A a, (inr a, []).
#[global] Instance M_bind : MBind M := λ A B f c,
  match c.1 with
  | inl e => (inl e, c.2)
  | inr a => ((f a).1, c.2 ++ (f a).2)
  end.

Definition throw {A} (e : Error) : M A := (inl e, []).

(** [try { body } catch (error) { handler(error) }] *)
Definition try_catch {A} (body : M A) (handler : Error -> M A) : M A :=
  match body.1 with
  | inl e => ((handler e).1, body.2 ++ (handler e).2)
  | inr a => (inr a, body.2)
  end.

Definition logInfo (m : Message) : M unit := (inr (), [Info m]).
Definition logWarning (m : Message) : M unit := (inr (), [Warning m]).
Definition logError (e : Error) : M unit := (inr (), [Failure e]).

(** [await octokit.graphql(document, variables)] *)
Definition graphql (octokit : GitHub) (document : Document)
  (variables : Variables) : M (option Graph.Response) :=
  (answer octokit document variables, [Request document variables]).

(** Modelled from the spec: [mutationSelector] of [../../util], which is not
    among the sources. The merge-commit mutation when the review is
    [APPROVED], the squash mutation for any other state and for no review. *)
Definition mutationSelector (reviewEdge : option ReviewEdge) : Document :=
  match reviewEdge with
  | Some edge =>
      match state (node edge) with
      | APPROVED => mergePullRequest MergeCommit
      | _ => mergePullRequest Squash
      end
  | None => mergePullRequest Squash
  end.

(** ** The handler *)

(** [const { groups: { g } } = s.match(r)]: destructuring [null] throws. *)
Definition destructure_group (found : option (gmap string jsstring))
  (g : string) : M jsstring :=
  match found with
  | None => throw TypeError
  | Some groups => mret (groups !!! g)
  end.

Definition getCommitMessageHeadline (context : Context) : M jsstring :=
  match commits (payload context) with
  | None => throw TypeError
  | Some cs =>
      match cs !! 0 with
      | None => throw TypeError
      | Some c =>
          destructure_group (match_ (message c) COMMIT_HEADLINE_MATCHER)
            "commitHeadline"
      end
  end.

Definition getReferenceName (context : Context) : M jsstring :=
  destructure_group (match_ (ref (payload context)) SHORT_REFERENCE_MATCHER)
    "name".

Definition getPullRequestInformation (octokit : GitHub) (query : Query)
  : M (option PullRequestInformation) :=
  response ← graphql octokit findPullRequestInformationAndReviews
               (QueryVariables query);
  match response with
  | None => mret None
  | Some data =>
      match Graph.repository data with
      | None => throw TypeError
      | Some repository =>
          match Graph.pullRequests repository with
          | None => throw TypeError
          | Some pullRequests =>
              if decide (length (Graph.nodes pullRequests) = 0) then mret None
              else
                match Graph.nodes pullRequests !! 0 with
                | None => throw TypeError
                | Some first =>
                    mret (Some {|
                      mergeableState := Graph.mergeable first;
                      merged := Graph.merged first;
                      pullRequestId := Graph.id first;
                      pullRequestState := Graph.state first;
                      reviewEdges := Graph.edges (Graph.reviews first)
                    |})
                end
          end
      end
  end.

Definition tryMerge (octokit : GitHub) (information : PullRequestInformation)
  (commitMessageHeadline : jsstring) : M unit :=
  if decide (mergeableState information ≠ MERGEABLE) then
    logInfo (NotMergeable (mergeableState information))
  else if merged information then
    logInfo AlreadyMerged
  else if decide (pullRequestState information ≠ OPEN) then
    logInfo (NotOpen (pullRequestState information))
  else
    _ ← graphql octokit (mutationSelector (at_index (reviewEdges information) 0))
          (MergeVariables commitMessageHeadline (pullRequestId information));
    mret ().

(** The body of the [try] block of [pushHandle]. The arguments of a call are
    evaluated before the call: the reference name before the query is sent,
    the commit headline before [tryMerge] is entered. *)
Definition pushHandle_try (octokit : GitHub) (context : Context) : M unit :=
  referenceName ← getReferenceName context;
  pullRequestInformation ←
    getPullRequestInformation octokit {|
      referenceName := referenceName;
      repositoryName := repo (context_repo context);
      repositoryOwner := owner (context_repo context)
    |};
  match pullRequestInformation with
  | None => logWarning UnableToFetch
  | Some information =>
      _ ← logInfo (FoundInformation information);
      commitMessageHeadline ← getCommitMessageHeadline context;
      tryMerge octokit information commitMessageHeadline
  end.

Definition pushHandle (octokit : GitHub) (context : Context)
  (gitHubLogin : jsstring) : M unit :=
  if decide (name (pusher (payload context)) ≠ gitHubLogin) then
    logInfo (NotCreatedBy gitHubLogin)
  else
    try_catch (pushHandle_try octokit context) logError.

(** ** Sample inputs *)

(** A push of [commits] to [reference] by [login]. *)
Definition push_by (login reference : jsstring)
  (commits : option (list Commit)) : Context := {|
  payload := {|
    commits := commits;
    pusher := {| name := login |};
    ref := reference
  |};
  context_repo := {| owner := str "ridedott"; repo := str "merge-me-action" |}
|}.

Definition review (s : ReviewState) : option ReviewEdge :=
  Some {| node := {| state := s |} |}.

(** An open, unmerged, mergeable pull request with the given reviews. *)
Definition eligible_with (reviewEdges : list (option ReviewEdge))
  : PullRequestInformation := {|
  mergeableState := MERGEABLE;
  merged := false;
  pullRequestId := str "MDExOlB1bGxSZXF1ZXN0MQ==";
  pullRequestState := OPEN;
  reviewEdges := reviewEdges
|}.

(** An API that answers every request with [response]. *)
Definition answering (response : option Graph.Response) : GitHub :=
  {| answer := fun _ _ => inr response |}.

(** An API that rejects every request. *)
Definition rejecting (detail : jsstring) : GitHub :=
  {| answer := fun _ _ => inl (RequestError detail) |}.

(** An API that answers the query with [response] and rejects mutations. *)
Definition rejecting_mutations (response : option Graph.Response)
  (detail : jsstring) : GitHub := {|
  answer := fun document _ =>
    match document with
    | findPullRequestInformationAndReviews => inr response
    | mergePullRequest _ => inl (RequestError detail)
    end
|}.

(** The answer that holds the pull requests [nodes]. *)
Definition found (nodes : list Graph.PullRequest) : option Graph.Response :=
  Some {| Graph.repository :=
            Some {| Graph.pullRequests := Some {| Graph.nodes := nodes |} |} |}.

Definition node_of (information : PullRequestInformation) : Graph.PullRequest := {|
  Graph.id := pullRequestId information;
  Graph.mergeable := mergeableState information;
  Graph.merged := merged information;
  Graph.reviews := {| Graph.edges := reviewEdges information |};
  Graph.state := pullRequestState information
|}.

(** ** Reading the trace *)

Definition is_mutation (e : Event) : bool :=
  match e with Request (mergePullRequest _) _ => true | _ => false end.
Definition is_query (e : Event) : bool :=
  match e with
  | Request findPullRequestInformationAndReviews _ => true
  | _ => false
  end.
Definition is_info (e : Event) : bool :=
  match e with Info _ => true | _ => false end.

(** The text of a message up to, not including, its first line break. *)
Definition first_line (message : jsstring) : jsstring :=
  take_while (fun c => negb (isLineTerminator c)) message.

Definition is_request (e : Event) : bool :=
  match e with Request _ _ => true | _ => false end.
Definition is_failure (e : Event) : bool :=
  match e with Failure _ => true | _ => false end.

(** The first commit of a payload, [undefined] when there is none. *)
Definition first_commit (p : Payload) : option Commit :=
  commits p ≫= head.

(** The variables of the query [pushHandle] sends for the branch
    [referenceName]. *)
Definition branch_query (context : Context) (referenceName : jsstring)
  : Query := {|
  referenceName := referenceName;
  repositoryName := repo (context_repo context);
  repositoryOwner := owner (context_repo context)
|}.

(** The information [getPullRequestInformation] makes of a node. *)
Definition information_of (first : Graph.PullRequest)
  : PullRequestInformation := {|
  mergeableState := Graph.mergeable first;
  merged := Graph.merged first;
  pullRequestId := Graph.id first;
  pullRequestState := Graph.state first;
  reviewEdges := Graph.edges (Graph.reviews first)
|}.

(** ** The entry point *)

(** What a run of the action does to the outside: what its handler does,
    and the three things [main] does around it. *)
Inductive Output :=
| Handled (e : Event)
| Enabled (login : jsstring)
    (* info(`Automatic merges enabled for GitHub login: ${GITHUB_LOGIN}.`) *)
| UnknownEvent (eventName : jsstring)
    (* warning(`Unknown event ${context.eventName}, skipping.`) *)
| SetFailed (e : Error).
    (* setFailed(`An unexpected error occurred: ${error.message}, ...`) *)

Section Main.

(** The two handlers of [./eventHandlers] that are not among the sources. *)
Variables checkSuiteHandle pullRequestHandle :
  GitHub -> Context -> jsstring -> M unit.

(** [main]; [eventName] is [context.eventName]. *)
Definition main (eventName : jsstring) (octokit : GitHub) (context : Context)
  (GITHUB_LOGIN : jsstring) : (Error + unit) * list Output :=
  let handled (h : M unit) :=
    (h.1, Enabled GITHUB_LOGIN :: (Handled <$> h.2)) in
  if decide (eventName = str "check_suite") then
    handled (checkSuiteHandle octokit context GITHUB_LOGIN)
  else if decide (eventName = str "pull_request") then
    handled (pullRequestHandle octokit context GITHUB_LOGIN)
  else if decide (eventName = str "push") then
    handled (pushHandle octokit context GITHUB_LOGIN)
  else
    (inr (), [Enabled GITHUB_LOGIN; UnknownEvent eventName]).

(** [main().catch(error => setFailed(...))]: the whole run. *)
Definition run (eventName : jsstring) (octokit : GitHub) (context : Context)
  (GITHUB_LOGIN : jsstring) : list Output :=
  let r := main eventName octokit context GITHUB_LOGIN in
  match r.1 with
  | inl e => r.2 ++ [SetFailed e]
  | inr _ => r.2
  end.

End Main.

(** ** The matcher on the two patterns *)

Section Repeat.

Variable p : char -> bool.
Variable m : MatchState -> Continuation -> option (gmap string jsstring).
Hypothesis m_charSet : ∀ x k, m x k = charSet p x k.
Variable k : Continuation.

(** When the continuation accepts what the longest run of [p] leaves, the
    greedy loop returns that: it is the first thing tried. *)
Lemma repeat_longest s : ∀ fuel i caps groups,
  length s ≤ fuel →
  k (mkState (i + length (take_while p s))
       (drop (length (take_while p s)) s) caps) = Some groups →
  repeatMatcher m k fuel (mkState i s caps) = Some groups.
Proof.
  induction s as [|c cs IH]; intros fuel i caps groups Hfuel;
    cbn [take_while].
  - rewrite Nat.add_0_r. cbn [length drop]. intros Hk.
    destruct fuel as [|fuel]; cbn [repeatMatcher]; [done|].
    by rewrite m_charSet.
  - destruct fuel as [|fuel]; [cbn in Hfuel; lia|].
    cbn [repeatMatcher]. rewrite m_charSet. unfold charSet.
    cbn [rest endIndex captures].
    destruct (p c) eqn:Hc; cbn [length drop].
    + rewrite Nat.add_succ_r. intros Hk.
      case_decide; [lia|].
      rewrite (IH fuel (S i) caps groups); [done|cbn in Hfuel; lia|done].
    + by rewrite Nat.add_0_r.
Qed.

(** When the continuation refuses every state with input left, the loop
    succeeds only by consuming the whole input. *)
Lemma repeat_to_end s : ∀ fuel i caps,
  length s ≤ fuel →
  (∀ y, rest y ≠ [] → k y = None) →
  repeatMatcher m k fuel (mkState i s caps) =
    if forallb p s then k (mkState (i + length s) [] caps) else None.
Proof.
  induction s as [|c cs IH]; intros fuel i caps Hfuel Hk.
  - cbn [forallb length]. rewrite Nat.add_0_r.
    destruct fuel as [|fuel]; cbn [repeatMatcher]; [done|].
    by rewrite m_charSet.
  - destruct fuel as [|fuel]; [cbn in Hfuel; lia|].
    cbn [repeatMatcher forallb length]. rewrite m_charSet. unfold charSet.
    cbn [rest endIndex captures].
    assert (k (mkState i (c :: cs) caps) = None) as Hhere
      by (by apply Hk).
    destruct (p c) eqn:Hc; cbn [andb]; [|done].
    case_decide; [lia|].
    rewrite (IH fuel (S i) caps); [|cbn in Hfuel; lia|done].
    rewrite Nat.add_succ_r, Hhere. cbn [Nat.add].
    destruct (forallb p cs); [|done].
    match goal with |- context [k ?y] => by destruct (k y) end.
Qed.

End Repeat.

Lemma execFrom_anchored_later r s : ∀ i, execFrom (Cat Bol r) (S i) s = None.
Proof.
  induction s as [|c cs IH]; intros i; cbn [execFrom matcher endIndex];
    case_decide; done.
Qed.

(** A pattern that starts with [^] is tried at index 0 only. *)
Lemma match_anchored s r :
  match_ s (Cat Bol r) = matcher r (mkState 0 s ∅) (fun y => Some (captures y)).
Proof.
  unfold match_. destruct s as [|c cs]; cbn [execFrom matcher endIndex];
    (case_decide; [|done]).
  - by destruct (matcher r _ _).
  - rewrite execFrom_anchored_later. by destruct (matcher r _ _).
Qed.

Lemma matcher_chars lit tl : ∀ i t caps k,
  matcher (chars lit tl) (mkState i (str lit ++ t) caps) k =
    matcher tl (mkState (i + length (str lit)) t caps) k.
Proof.
  unfold chars, str.
  induction (list_ascii_of_string lit) as [|a l IH]; intros i t caps k.
  - cbn. by rewrite Nat.add_0_r.
  - cbn [foldr fmap list_fmap app length matcher]. unfold charSet.
    cbn [rest endIndex captures]. rewrite N.eqb_refl, IH.
    by rewrite Nat.add_succ_r.
Qed.

Lemma matcher_chars_mismatch lit tl : ∀ i s caps k,
  (∀ t, s ≠ str lit ++ t) →
  matcher (chars lit tl) (mkState i s caps) k = None.
Proof.
  unfold chars, str.
  induction (list_ascii_of_string lit) as [|a l IH]; intros i s caps k Hs.
  - by destruct (Hs s).
  - cbn [foldr fmap list_fmap matcher]. unfold charSet. cbn [rest].
    destruct s as [|c cs]; [done|].
    destruct (N.eqb_spec (N_of_ascii a) c) as [<-|]; [|done].
    apply IH. intros t ->. by apply (Hs t).
Qed.

Lemma take_take_while p s : take (length (take_while p s)) s = take_while p s.
Proof.
  induction s as [|c cs IH]; cbn [take_while]; [done|].
  destruct (p c); cbn [length take]; [by rewrite IH|done].
Qed.

Lemma take_while_all p s : forallb p s = true → take_while p s = s.
Proof.
  induction s as [|c cs IH]; cbn [take_while forallb]; [done|].
  destruct (p c); cbn [andb]; [|done]. by intros ->%IH.
Qed.

Lemma take_while_forallb p s : forallb p (take_while p s) = true.
Proof.
  induction s as [|c cs IH]; cbn [take_while]; [done|].
  destruct (p c) eqn:Hc; cbn [forallb]; [|done]. by rewrite Hc, IH.
Qed.

(** [[\s\S]] accepts every character. *)
Lemma class_sS_all s :
  forallb (fun c => existsb (fun e => classEscapeMatches e c) [class_s; class_S])
    s = true.
Proof.
  induction s as [|c cs IH]; cbn [forallb]; [done|].
  rewrite IH. cbn [existsb classEscapeMatches].
  by destruct (isWhiteSpace c || isLineTerminator c).
Qed.

Lemma match_COMMIT_HEADLINE_MATCHER s :
  match_ s COMMIT_HEADLINE_MATCHER =
    Some {["commitHeadline" := first_line s]}.
Proof.
  unfold COMMIT_HEADLINE_MATCHER. rewrite match_anchored.
  cbn [matcher rest endIndex captures].
  apply (repeat_longest (fun c => negb (isLineTerminator c))); [done|done|].
  cbn [rest endIndex captures].
  rewrite (repeat_to_end
             (fun c => existsb (fun e => classEscapeMatches e c) [class_s; class_S])
             (matcher (Class [class_s; class_S])));
    [|done|done|by intros [? [|??] ?]].
  rewrite class_sS_all. cbn [matcher rest captures].
  by rewrite Nat.sub_0_r, Nat.add_0_l, take_take_while, insert_empty.
Qed.

Lemma match_SHORT_REFERENCE_MATCHER_name name :
  forallb (fun c => negb (isLineTerminator c)) name = true →
  match_ (str "refs/heads/" ++ name) SHORT_REFERENCE_MATCHER =
    Some {["name" := name]}.
Proof.
  intros Hname. unfold SHORT_REFERENCE_MATCHER.
  rewrite match_anchored, matcher_chars.
  cbn [matcher rest endIndex captures].
  rewrite (repeat_to_end (fun c => negb (isLineTerminator c)) (matcher Dot));
    [|done|done|by intros [? [|??] ?]].
  rewrite Hname. cbn [matcher rest endIndex captures].
  rewrite insert_empty. do 3 f_equal.
  apply take_ge. lia.
Qed.

Lemma match_SHORT_REFERENCE_MATCHER_null s :
  (∀ name, s = str "refs/heads/" ++ name →
           forallb (fun c => negb (isLineTerminator c)) name = false) →
  match_ s SHORT_REFERENCE_MATCHER = None.
Proof.
  intros Hs. unfold SHORT_REFERENCE_MATCHER. rewrite match_anchored.
  destruct (decide (str "refs/heads/" `prefix_of` s)) as [[name ->]|Hno].
  - rewrite matcher_chars. cbn [matcher rest endIndex captures].
    rewrite (repeat_to_end (fun c => negb (isLineTerminator c)) (matcher Dot));
      [|done|done|by intros [? [|??] ?]].
    by rewrite (Hs name).
  - apply matcher_chars_mismatch. intros t ->. apply Hno. by exists t.
Qed.

Example match_SHORT_REFERENCE_MATCHER_feature :
  match_ (str "refs/heads/feature/x") SHORT_REFERENCE_MATCHER
  = Some {["name" := str "feature/x"]}.
Proof. vm_compute. reflexivity. Qed.

Example match_SHORT_REFERENCE_MATCHER_tag :
  match_ (str "refs/tags/v1.0.0") SHORT_REFERENCE_MATCHER = None.
Proof. vm_compute. reflexivity. Qed.

Example match_SHORT_REFERENCE_MATCHER_not_at_start :
  match_ (str "x/refs/heads/main") SHORT_REFERENCE_MATCHER = None.
Proof. vm_compute. reflexivity. Qed.

Example match_COMMIT_HEADLINE_MATCHER_crlf :
  match_ (str "Bump a" ++ [0x0D; 0x0A]%N ++ str "Body") COMMIT_HEADLINE_MATCHER
  = Some {["commitHeadline" := str "Bump a"]}.
Proof. vm_compute. reflexivity. Qed.

Example match_COMMIT_HEADLINE_MATCHER_empty :
  match_ [] COMMIT_HEADLINE_MATCHER = Some {["commitHeadline" := []]}.
Proof. vm_compute. reflexivity. Qed.

(** ** [tryMerge] *)

Lemma mutationSelector_is_mutation reviewEdge variables :
  is_mutation (Request (mutationSelector reviewEdge) variables) = true.
Proof. by destruct reviewEdge as [[[[]]]|]. Qed.

(** What [tryMerge] leaves behind, branch by branch. *)
Lemma tryMerge_events octokit information commitMessageHeadline :
  (tryMerge octokit information commitMessageHeadline).2 =
    match mergeableState information, merged information,
          pullRequestState information with
    | MERGEABLE, false, OPEN =>
        [Request (mutationSelector (at_index (reviewEdges information) 0))
           (MergeVariables commitMessageHeadline (pullRequestId information))]
    | MERGEABLE, false, s => [Info (NotOpen s)]
    | MERGEABLE, true, _ => [Info AlreadyMerged]
    | s, _, _ => [Info (NotMergeable s)]
    end.
Proof.
  unfold tryMerge.
  destruct information as [[] [] ? [] ?]; cbn; try done;
    by destruct (answer octokit _ _).
Qed.

(** C2. [tryMerge] sends no merge mutation when the pull request is not
    mergeable, or is merged already, or is not open: in each of the
    3 x 2 x 3 combinations of the three fields but the eligible one. *)
Theorem tryMerge_no_mutation_unless_eligible
  octokit information commitMessageHeadline :
  mergeableState information ≠ MERGEABLE
  ∨ merged information = true
  ∨ pullRequestState information ≠ OPEN →
  List.filter is_mutation
    (tryMerge octokit information commitMessageHeadline).2 = [].
Proof.
  intros Hskip. rewrite tryMerge_events.
  destruct information as [[] [] ? [] ?]; cbn in *; try done;
    by destruct Hskip as [?|[?|?]].
Qed.

Lemma tryMerge_no_mutation_unless_eligible_witness :
  List.filter is_mutation
    (tryMerge (answering None)
       {| mergeableState := CONFLICTING; merged := true;
          pullRequestId := str "p"; pullRequestState := MERGED;
          reviewEdges := [review APPROVED] |}
       (str "Bump")).2 = [].
Proof.
  apply tryMerge_no_mutation_unless_eligible. left. cbn. discriminate.
Defined.

(** C3. The merge mutations [tryMerge] sends: exactly one, with the pull
    request's id and the given commit headline, when the pull request is
    mergeable, not merged and open, and none in every other case. *)
Theorem tryMerge_mutation_calls octokit information commitMessageHeadline :
  List.filter is_mutation
    (tryMerge octokit information commitMessageHeadline).2 =
    if decide (mergeableState information = MERGEABLE
               ∧ merged information = false
               ∧ pullRequestState information = OPEN)
    then [Request (mutationSelector (at_index (reviewEdges information) 0))
            (MergeVariables commitMessageHeadline (pullRequestId information))]
    else [].
Proof.
  rewrite tryMerge_events. case_decide as H.
  - destruct H as (-> & -> & ->). cbn [List.filter].
    by rewrite mutationSelector_is_mutation.
  - destruct information as [[] [] ? [] ?]; cbn in *; try done.
    by destruct H.
Qed.

(** C8. The skip conditions are tried in the order mergeable state, merged
    flag, open state: a pull request that is not mergeable is reported as
    such whatever the other two fields say; "already merged" is logged
    only for a mergeable one, and "not open" only for a mergeable one that
    is not merged. *)
Theorem tryMerge_skip_order octokit information commitMessageHeadline :
  (mergeableState information ≠ MERGEABLE →
   tryMerge octokit information commitMessageHeadline =
     (inr (), [Info (NotMergeable (mergeableState information))]))
  ∧ (Info AlreadyMerged ∈
       (tryMerge octokit information commitMessageHeadline).2 →
     mergeableState information = MERGEABLE ∧ merged information = true)
  ∧ (∀ s, Info (NotOpen s) ∈
       (tryMerge octokit information commitMessageHeadline).2 →
     mergeableState information = MERGEABLE ∧ merged information = false
     ∧ pullRequestState information = s ∧ s ≠ OPEN).
Proof.
  split_and!.
  - unfold tryMerge. by case_decide.
  - rewrite tryMerge_events.
    destruct information as [[] [] ? [] ?]; cbn;
      intros Hin%list_elem_of_singleton; by simplify_eq.
  - intros s. rewrite tryMerge_events.
    destruct information as [[] [] ? [] ?]; cbn;
      intros Hin%list_elem_of_singleton; by simplify_eq.
Qed.

Lemma tryMerge_skip_order_witness :
  tryMerge (answering None)
    {| mergeableState := CONFLICTING; merged := true;
       pullRequestId := str "p"; pullRequestState := CLOSED;
       reviewEdges := [] |}
    (str "Bump")
  = (inr (), [Info (NotMergeable CONFLICTING)]).
Proof.
  apply (proj1 (tryMerge_skip_order (answering None)
                  {| mergeableState := CONFLICTING; merged := true;
                     pullRequestId := str "p"; pullRequestState := CLOSED;
                     reviewEdges := [] |}
                  (str "Bump"))).
  cbn. discriminate.
Defined.

(** C1, as amended. For a mergeable, unmerged, open pull request
    [tryMerge] sends the mutation that the selector picks for the first
    review edge, [reviewEdges[0]], which is [undefined] when there is none;
    this is the last edge as well whenever there is at most one. *)
Theorem tryMerge_selects_on_first_edge
  octokit information commitMessageHeadline :
  mergeableState information = MERGEABLE →
  merged information = false →
  pullRequestState information = OPEN →
  (tryMerge octokit information commitMessageHeadline).2 =
    [Request (mutationSelector (at_index (reviewEdges information) 0))
       (MergeVariables commitMessageHeadline (pullRequestId information))]
  ∧ (length (reviewEdges information) ≤ 1 →
     at_index (reviewEdges information) 0 =
     at_index (reviewEdges information)
       (length (reviewEdges information) - 1)).
Proof.
  intros Hmergeable Hmerged Hopen.
  rewrite tryMerge_events, Hmergeable, Hmerged, Hopen. split; [done|].
  destruct (reviewEdges information) as [|? [|??]]; cbn; [done|done|lia].
Qed.

Lemma tryMerge_selects_on_first_edge_witness :
  (tryMerge (answering None) (eligible_with [review APPROVED]) (str "Bump")).2 =
    [Request (mergePullRequest MergeCommit)
       (MergeVariables (str "Bump") (str "MDExOlB1bGxSZXF1ZXN0MQ=="))]
  ∧ (1 ≤ 1 → review APPROVED = review APPROVED).
Proof.
  apply (tryMerge_selects_on_first_edge (answering None)
           (eligible_with [review APPROVED]) (str "Bump")); reflexivity.
Defined.

(** With an older review that asks for changes and a newer one that
    approves, the last edge selects the merge-commit mutation, and
    [tryMerge] sends the squash mutation, selected by the first. *)
Lemma tryMerge_not_on_last_edge :
  let information :=
    eligible_with [review CHANGES_REQUESTED; review APPROVED] in
  mergeableState information = MERGEABLE
  ∧ merged information = false
  ∧ pullRequestState information = OPEN
  ∧ (tryMerge (answering None) information (str "Bump")).2 ≠
      [Request
         (mutationSelector
            (at_index (reviewEdges information)
               (length (reviewEdges information) - 1)))
         (MergeVariables (str "Bump") (pullRequestId information))].
Proof. cbn. split_and!; done. Qed.

(** ** [getPullRequestInformation] *)

(** C10. Given the answer of the API, [getPullRequestInformation] returns
    [undefined] exactly when the answer is [null] or lists no pull request;
    it throws when the answer lacks [repository] or [pullRequests]; and
    when there is a first pull request, the information is that of the
    first, whatever follows it. *)
Theorem getPullRequestInformation_cases octokit query response :
  answer octokit findPullRequestInformationAndReviews (QueryVariables query)
    = inr response →
  ((getPullRequestInformation octokit query).1 = inr None ↔
     response = None
     ∨ ∃ data repository pullRequests,
         response = Some data
         ∧ Graph.repository data = Some repository
         ∧ Graph.pullRequests repository = Some pullRequests
         ∧ Graph.nodes pullRequests = [])
  ∧ (∀ data, response = Some data →
       Graph.repository data = None
       ∨ (∃ repository, Graph.repository data = Some repository
                        ∧ Graph.pullRequests repository = None) →
       (getPullRequestInformation octokit query).1 = inl TypeError)
  ∧ (∀ data repository pullRequests first others,
       response = Some data →
       Graph.repository data = Some repository →
       Graph.pullRequests repository = Some pullRequests →
       Graph.nodes pullRequests = first :: others →
       (getPullRequestInformation octokit query).1 =
         inr (Some {|
           mergeableState := Graph.mergeable first;
           merged := Graph.merged first;
           pullRequestId := Graph.id first;
           pullRequestState := Graph.state first;
           reviewEdges := Graph.edges (Graph.reviews first)
         |})).
Proof.
  intros Hanswer.
  unfold getPullRequestInformation, graphql, mbind, M_bind.
  cbn [fst snd]. rewrite Hanswer.
  destruct response as [[[[[[[|first others]]|]]|]]|]; cbn;
    (split_and!; [split|..]); intros; destruct_or?; destruct_and?;
    repeat match goal with H : ∃ _, _ |- _ => destruct H end;
    destruct_and?; simplify_eq/=; try done.
  - right. by eexists _, _, _.
  - by left.
Qed.

Lemma getPullRequestInformation_cases_witness :
  (getPullRequestInformation
     (answering
        (found [node_of (eligible_with [review APPROVED]);
                node_of (eligible_with [])]))
     {| referenceName := str "dependabot/npm/x";
        repositoryName := str "merge-me-action";
        repositoryOwner := str "ridedott" |}).1
  = inr (Some (eligible_with [review APPROVED])).
Proof.
  refine (proj2 (proj2 (getPullRequestInformation_cases
                          (answering (found _)) _ (found _) eq_refl))
            _ _ _ _ _ eq_refl eq_refl eq_refl eq_refl).
Defined.

(** ** The payload parsers *)

Lemma first_line_split s :
  ∃ tail, s = first_line s ++ tail
          ∧ (tail = [] ∨ ∃ c tail', tail = c :: tail'
                                    ∧ isLineTerminator c = true).
Proof.
  unfold first_line. induction s as [|c cs (tail & Hcs & Htail)].
  - exists []. by split; [|left].
  - cbn [take_while]. destruct (isLineTerminator c) eqn:Hc; cbn [negb].
    + exists (c :: cs). split; [done|]. right. by exists c, cs.
    + exists tail. split; [|done]. cbn [app]. by rewrite <-Hcs.
Qed.

Lemma getCommitMessageHeadline_eq context c cs :
  commits (payload context) = Some (c :: cs) →
  getCommitMessageHeadline context = mret (first_line (message c)).
Proof.
  intros Hcommits. unfold getCommitMessageHeadline.
  rewrite Hcommits. cbn [lookup list_lookup].
  rewrite match_COMMIT_HEADLINE_MATCHER. unfold destructure_group.
  by rewrite lookup_total_singleton.
Qed.

Lemma getCommitMessageHeadline_throws context :
  commits (payload context) = None ∨ commits (payload context) = Some [] →
  getCommitMessageHeadline context = throw TypeError.
Proof. unfold getCommitMessageHeadline. by intros [-> | ->]. Qed.

(** C7. The headline of a commit message is the text before its first line
    break: the message is the headline followed by nothing or by a line
    terminator and more, and the headline holds no line terminator. A
    message without a line break is its own headline; so is the headline
    of any message. *)
Theorem getCommitMessageHeadline_first_line context c cs :
  commits (payload context) = Some (c :: cs) →
  ∃ headline tail,
    getCommitMessageHeadline context = mret headline
    ∧ message c = headline ++ tail
    ∧ forallb (fun ch => negb (isLineTerminator ch)) headline = true
    ∧ (tail = [] ∨ ∃ lt tail', tail = lt :: tail'
                               ∧ isLineTerminator lt = true)
    ∧ (forallb (fun ch => negb (isLineTerminator ch)) (message c) = true →
       headline = message c)
    ∧ (∀ context' c' cs',
         commits (payload context') = Some (c' :: cs') →
         message c' = headline →
         getCommitMessageHeadline context' = mret headline).
Proof.
  intros Hcommits.
  destruct (first_line_split (message c)) as (tail & Hsplit & Htail).
  exists (first_line (message c)), tail. split_and!; try done.
  - by apply getCommitMessageHeadline_eq with cs.
  - apply take_while_forallb.
  - apply take_while_all.
  - intros context' c' cs' Hcommits' Hmessage.
    rewrite (getCommitMessageHeadline_eq context' c' cs' Hcommits'), Hmessage.
    unfold first_line at 1.
    by rewrite take_while_all by apply take_while_forallb.
Qed.

Lemma getCommitMessageHeadline_first_line_witness :
  ∃ headline tail,
    getCommitMessageHeadline
      (push_by (str "dependabot") (str "refs/heads/x")
         (Some [ {| message := str "Bump a" ++ [0x0D; 0x0A]%N ++ str "Body" |} ]))
      = mret headline
    ∧ str "Bump a" ++ [0x0D; 0x0A]%N ++ str "Body" = headline ++ tail
    ∧ forallb (fun ch => negb (isLineTerminator ch)) headline = true
    ∧ (tail = [] ∨ ∃ lt tail', tail = lt :: tail'
                               ∧ isLineTerminator lt = true)
    ∧ (forallb (fun ch => negb (isLineTerminator ch))
         (str "Bump a" ++ [0x0D; 0x0A]%N ++ str "Body") = true →
       headline = str "Bump a" ++ [0x0D; 0x0A]%N ++ str "Body")
    ∧ (∀ context' c' cs',
         commits (payload context') = Some (c' :: cs') →
         message c' = headline →
         getCommitMessageHeadline context' = mret headline).
Proof.
  apply (getCommitMessageHeadline_first_line
           (push_by (str "dependabot") (str "refs/heads/x")
              (Some [ {| message := str "Bump a" ++ [0x0D; 0x0A]%N ++ str "Body" |} ]))
           {| message := str "Bump a" ++ [0x0D; 0x0A]%N ++ str "Body" |} []).
  reflexivity.
Defined.

(** C6, as amended. A reference that is [refs/heads/] followed by a name
    without line terminator yields exactly that name; every other string
    makes the parser throw. *)
Theorem getReferenceName_branch context :
  (∀ name,
     ref (payload context) = str "refs/heads/" ++ name →
     forallb (fun c => negb (isLineTerminator c)) name = true →
     getReferenceName context = mret name)
  ∧ ((∀ name,
        ref (payload context) = str "refs/heads/" ++ name →
        forallb (fun c => negb (isLineTerminator c)) name = false) →
     getReferenceName context = throw TypeError).
Proof.
  unfold getReferenceName. split.
  - intros name -> Hname.
    rewrite (match_SHORT_REFERENCE_MATCHER_name name Hname).
    unfold destructure_group. by rewrite lookup_total_singleton.
  - intros Hno. by rewrite (match_SHORT_REFERENCE_MATCHER_null _ Hno).
Qed.

Lemma getReferenceName_branch_witness :
  getReferenceName (push_by (str "dependabot") (str "refs/heads/feature/x") None)
    = mret (str "feature/x")
  ∧ getReferenceName (push_by (str "dependabot") (str "refs/tags/v1") None)
    = throw TypeError.
Proof.
  split.
  - apply (proj1 (getReferenceName_branch
                    (push_by (str "dependabot") (str "refs/heads/feature/x") None)));
      reflexivity.
  - apply (proj2 (getReferenceName_branch
                    (push_by (str "dependabot") (str "refs/tags/v1") None))).
    intros name Hname. discriminate Hname.
Defined.

(** A branch may be named with a line separator, U+2028, in it: the
    reference then has the form [refs/heads/] and a name, and the parser
    throws. *)
Lemma getReferenceName_line_separator_throws :
  let name := str "a" ++ [0x2028%N] ++ str "b" in
  ref (payload (push_by (str "dependabot") (str "refs/heads/" ++ name) None))
    = str "refs/heads/" ++ name
  ∧ getReferenceName
      (push_by (str "dependabot") (str "refs/heads/" ++ name) None)
    = throw TypeError
  ∧ getReferenceName
      (push_by (str "dependabot") (str "refs/heads/" ++ name) None)
    ≠ mret name.
Proof. vm_compute. split_and!; done. Qed.

(** ** [pushHandle] *)

Lemma bind_events {A B} (c : M A) (f : A → M B) :
  (c ≫= f).2 =
    c.2 ++ match c.1 with inl _ => [] | inr a => (f a).2 end.
Proof.
  unfold mbind, M_bind. destruct c as [[e|a] t]; cbn [fst snd]; [|done].
  by rewrite app_nil_r.
Qed.

Lemma getReferenceName_events context : (getReferenceName context).2 = [].
Proof.
  unfold getReferenceName, destructure_group. by destruct (match_ _ _).
Qed.

Lemma getPullRequestInformation_events octokit query :
  (getPullRequestInformation octokit query).2 =
    [Request findPullRequestInformationAndReviews (QueryVariables query)].
Proof.
  unfold getPullRequestInformation. rewrite bind_events.
  unfold graphql. cbn [fst snd].
  destruct (answer octokit _ _) as [e|[[[[[[[|??]]|]]|]]|]]; by cbn.
Qed.

(** C5. A push by anyone but the configured login is answered with one
    line in the log, at info level, and nothing else: no query, no
    mutation, whatever else the payload holds. *)
Theorem pushHandle_other_pusher octokit context gitHubLogin :
  name (pusher (payload context)) ≠ gitHubLogin →
  pushHandle octokit context gitHubLogin =
    (inr (), [Info (NotCreatedBy gitHubLogin)])
  ∧ List.filter is_query (pushHandle octokit context gitHubLogin).2 = []
  ∧ List.filter is_mutation (pushHandle octokit context gitHubLogin).2 = []
  ∧ length (List.filter is_info (pushHandle octokit context gitHubLogin).2) = 1.
Proof.
  intros Hname. unfold pushHandle. by case_decide.
Qed.

Lemma pushHandle_other_pusher_witness :
  pushHandle (rejecting (str "unreachable"))
    (push_by (str "octocat") (str "not a reference") None) (str "dependabot") =
    (inr (), [Info (NotCreatedBy (str "dependabot"))])
  ∧ List.filter is_query
      (pushHandle (rejecting (str "unreachable"))
         (push_by (str "octocat") (str "not a reference") None)
         (str "dependabot")).2 = []
  ∧ List.filter is_mutation
      (pushHandle (rejecting (str "unreachable"))
         (push_by (str "octocat") (str "not a reference") None)
         (str "dependabot")).2 = []
  ∧ length
      (List.filter is_info
         (pushHandle (rejecting (str "unreachable"))
            (push_by (str "octocat") (str "not a reference") None)
            (str "dependabot")).2) = 1.
Proof.
  apply pushHandle_other_pusher. cbn. discriminate.
Defined.

(** C4. [pushHandle] returns, whatever the API answers and whatever the
    payload holds; and an error thrown inside its [try], by a parser, by
    the query or by the mutation, is the last thing it logs, at error
    level. *)
Theorem pushHandle_never_throws octokit context gitHubLogin :
  (pushHandle octokit context gitHubLogin).1 = inr ()
  ∧ (∀ e,
       name (pusher (payload context)) = gitHubLogin →
       (pushHandle_try octokit context).1 = inl e →
       (pushHandle octokit context gitHubLogin).2 =
         (pushHandle_try octokit context).2 ++ [Failure e]).
Proof.
  unfold pushHandle, try_catch. split.
  - case_decide; [done|].
    by destruct (pushHandle_try octokit context) as [[e|[]] t].
  - intros e Hname Hthrown. case_decide; [done|]. by rewrite Hthrown.
Qed.

Lemma pushHandle_never_throws_witness :
  (pushHandle (rejecting (str "502"))
     (push_by (str "dependabot") (str "refs/heads/x") None)
     (str "dependabot")).2
  = (pushHandle_try (rejecting (str "502"))
       (push_by (str "dependabot") (str "refs/heads/x") None)).2
    ++ [Failure (RequestError (str "502"))].
Proof.
  apply (proj2 (pushHandle_never_throws (rejecting (str "502"))
                  (push_by (str "dependabot") (str "refs/heads/x") None)
                  (str "dependabot")));
    reflexivity.
Defined.

(** The three kinds of failure, each on a sample push: a reference that is
    no branch, a query that is rejected, a mutation that is rejected. *)
Example pushHandle_parse_failure :
  pushHandle (answering None)
    (push_by (str "dependabot") (str "refs/tags/v1") (Some []))
    (str "dependabot")
  = (inr (), [Failure TypeError]).
Proof. vm_compute. reflexivity. Qed.

Example pushHandle_fetch_failure :
  (pushHandle (rejecting (str "502"))
     (push_by (str "dependabot") (str "refs/heads/x") (Some []))
     (str "dependabot"))
  = (inr (),
     [Request findPullRequestInformationAndReviews
        (QueryVariables {| referenceName := str "x";
                           repositoryName := str "merge-me-action";
                           repositoryOwner := str "ridedott" |});
      Failure (RequestError (str "502"))]).
Proof. vm_compute. reflexivity. Qed.

(** C9. The headline is that of the first commit of the push: it is a
    function of [commits[0].message] alone, it is what every merge mutation
    of [pushHandle] carries, and without a first commit, the list empty or
    absent, the extraction throws. *)
Theorem headline_from_first_commit octokit context gitHubLogin :
  (∀ c cs,
     commits (payload context) = Some (c :: cs) →
     getCommitMessageHeadline context = mret (first_line (message c)))
  ∧ (commits (payload context) = None
     ∨ commits (payload context) = Some [] →
     getCommitMessageHeadline context = throw TypeError)
  ∧ (∀ strategy headline pullRequestId,
       Request (mergePullRequest strategy)
         (MergeVariables headline pullRequestId)
         ∈ (pushHandle octokit context gitHubLogin).2 →
       ∃ c cs,
         commits (payload context) = Some (c :: cs)
         ∧ headline = first_line (message c)).
Proof.
  split_and!.
  - apply getCommitMessageHeadline_eq.
  - apply getCommitMessageHeadline_throws.
  - intros strategy headline id. unfold pushHandle, try_catch.
    case_decide; [by intros ?%list_elem_of_singleton|].
    intros Hin.
    assert (Request (mergePullRequest strategy) (MergeVariables headline id)
              ∈ (pushHandle_try octokit context).2) as Htry.
    { destruct (pushHandle_try octokit context).1; cbn [fst snd] in Hin;
        [|done].
      by apply elem_of_app in Hin as [?|?%list_elem_of_singleton]. }
    clear Hin. revert Htry. unfold pushHandle_try.
    rewrite bind_events, getReferenceName_events. cbn [app].
    destruct (getReferenceName context).1 as [|name]; [by intros ?%elem_of_nil|].
    rewrite bind_events, getPullRequestInformation_events.
    intros [?|Hin]%elem_of_cons; [done|]. revert Hin. cbn [app].
    destruct (getPullRequestInformation _ _).1 as [|[information|]];
      [by intros ?%elem_of_nil| |by intros ?%list_elem_of_singleton].
    rewrite bind_events. unfold logInfo at 1 2. cbn [fst snd app].
    intros [?|Hin]%elem_of_cons; [done|]. revert Hin.
    rewrite bind_events.
    destruct (commits (payload context)) as [[|c cs]|] eqn:Hcommits.
    + rewrite getCommitMessageHeadline_throws by by right.
      by intros ?%elem_of_nil.
    + rewrite (getCommitMessageHeadline_eq context c cs Hcommits).
      cbn [mret M_ret fst snd app]. rewrite tryMerge_events.
      intros Hin. exists c, cs. split; [done|].
      destruct information as [[] [] ? [] ?];
        cbn in Hin; apply list_elem_of_singleton in Hin; by simplify_eq.
    + rewrite getCommitMessageHeadline_throws by by left.
      by intros ?%elem_of_nil.
Qed.

Lemma headline_from_first_commit_witness :
  getCommitMessageHeadline
    (push_by (str "dependabot") (str "refs/heads/x")
       (Some [ {| message := str "Bump a" ++ [0x0A%N] ++ str "Body" |};
               {| message := str "Fix b" |} ]))
  = mret (str "Bump a").
Proof.
  apply (proj1 (headline_from_first_commit (answering None)
                  (push_by (str "dependabot") (str "refs/heads/x")
                     (Some [ {| message := str "Bump a" ++ [0x0A%N] ++ str "Body" |};
                             {| message := str "Fix b" |} ]))
                  (str "dependabot"))
           {| message := str "Bump a" ++ [0x0A%N] ++ str "Body" |}
           [ {| message := str "Fix b" |} ]).
  reflexivity.
Defined.

Example pushHandle_mutation_failure :
  pushHandle
    (rejecting_mutations (found [node_of (eligible_with [])]) (str "405"))
    (push_by (str "dependabot") (str "refs/heads/x")
       (Some [ {| message := str "Bump a" |} ]))
    (str "dependabot")
  = (inr (),
     [Request findPullRequestInformationAndReviews
        (QueryVariables {| referenceName := str "x";
                           repositoryName := str "merge-me-action";
                           repositoryOwner := str "ridedott" |});
      Info (FoundInformation (eligible_with []));
      Request (mergePullRequest Squash)
        (MergeVariables (str "Bump a") (pullRequestId (eligible_with [])));
      Failure (RequestError (str "405"))]).
Proof. vm_compute. reflexivity. Qed.

(** A push by the configured login to the branch of an approved, eligible
    pull request: one query, then one merge-commit mutation that carries
    the headline of the first commit. *)
Example pushHandle_merges_approved :
  pushHandle
    (answering (found [node_of (eligible_with [review APPROVED])]))
    (push_by (str "dependabot") (str "refs/heads/dependabot/npm/x")
       (Some [ {| message := str "Bump a" ++ [0x0A; 0x0A]%N ++ str "Body" |};
               {| message := str "Fix b" |} ]))
    (str "dependabot")
  = (inr (),
     [Request findPullRequestInformationAndReviews
        (QueryVariables {| referenceName := str "dependabot/npm/x";
                           repositoryName := str "merge-me-action";
                           repositoryOwner := str "ridedott" |});
      Info (FoundInformation (eligible_with [review APPROVED]));
      Request (mergePullRequest MergeCommit)
        (MergeVariables (str "Bump a")
           (pullRequestId (eligible_with [review APPROVED])))]).
Proof. vm_compute. reflexivity. Qed.

(** No pull request for the branch: a warning, and no mutation. *)
Example pushHandle_nothing_found :
  pushHandle (answering (found []))
    (push_by (str "dependabot") (str "refs/heads/x") None) (str "dependabot")
  = (inr (),
     [Request findPullRequestInformationAndReviews
        (QueryVariables {| referenceName := str "x";
                           repositoryName := str "merge-me-action";
                           repositoryOwner := str "ridedott" |});
      Warning UnableToFetch]).
Proof. vm_compute. reflexivity. Qed.

(** ** How the parts of [pushHandle] compose *)

Lemma bind_result {A B} (c : M A) (f : A → M B) :
  (c ≫= f).1 = match c.1 with inl e => inl e | inr a => (f a).1 end.
Proof. unfold mbind, M_bind. by destruct c as [[e|a] t]. Qed.

Lemma getCommitMessageHeadline_events context :
  (getCommitMessageHeadline context).2 = [].
Proof.
  unfold getCommitMessageHeadline, destructure_group.
  destruct (commits (payload context)) as [[|c cs]|]; cbn [lookup list_lookup];
    try done.
  by destruct (match_ _ _).
Qed.

Lemma pushHandle_try_events octokit context :
  (pushHandle_try octokit context).2 =
    match (getReferenceName context).1 with
    | inl _ => []
    | inr name =>
        Request findPullRequestInformationAndReviews
          (QueryVariables (branch_query context name)) ::
        match (getPullRequestInformation octokit
                 (branch_query context name)).1 with
        | inl _ => []
        | inr None => [Warning UnableToFetch]
        | inr (Some information) =>
            Info (FoundInformation information) ::
            match (getCommitMessageHeadline context).1 with
            | inl _ => []
            | inr headline => (tryMerge octokit information headline).2
            end
        end
    end.
Proof.
  unfold pushHandle_try.
  rewrite bind_events, getReferenceName_events. cbn [app].
  destruct (getReferenceName context).1 as [|name]; [done|].
  fold (branch_query context name).
  rewrite bind_events, getPullRequestInformation_events. cbn [app].
  destruct (getPullRequestInformation _ _).1 as [|[information|]]; try done.
  rewrite bind_events. unfold logInfo at 1 2. cbn [fst snd app].
  by rewrite bind_events, getCommitMessageHeadline_events.
Qed.

Lemma pushHandle_try_result octokit context :
  (pushHandle_try octokit context).1 =
    match (getReferenceName context).1 with
    | inl e => inl e
    | inr name =>
        match (getPullRequestInformation octokit
                 (branch_query context name)).1 with
        | inl e => inl e
        | inr None => inr ()
        | inr (Some information) =>
            match (getCommitMessageHeadline context).1 with
            | inl e => inl e
            | inr headline => (tryMerge octokit information headline).1
            end
        end
    end.
Proof.
  unfold pushHandle_try. rewrite bind_result.
  destruct (getReferenceName context).1 as [|name]; [done|].
  fold (branch_query context name). rewrite bind_result.
  destruct (getPullRequestInformation _ _).1 as [|[information|]]; try done.
  rewrite bind_result. unfold logInfo at 1. cbn [fst].
  by rewrite bind_result.
Qed.

Lemma pushHandle_events octokit context gitHubLogin :
  name (pusher (payload context)) = gitHubLogin →
  (pushHandle octokit context gitHubLogin).2 =
    (pushHandle_try octokit context).2
    ++ match (pushHandle_try octokit context).1 with
       | inl e => [Failure e]
       | inr _ => []
       end.
Proof.
  intros Hname. unfold pushHandle, try_catch. case_decide; [done|].
  destruct (pushHandle_try octokit context).1; cbn [fst snd logError]; [done|].
  by rewrite app_nil_r.
Qed.

Lemma pushHandle_result octokit context gitHubLogin :
  (pushHandle octokit context gitHubLogin).1 = inr ().
Proof.
  unfold pushHandle, try_catch. case_decide; [done|].
  by destruct (pushHandle_try octokit context) as [[e|[]] t].
Qed.

Lemma getReferenceName_cases context :
  (∃ name, ref (payload context) = str "refs/heads/" ++ name
           ∧ forallb (fun c => negb (isLineTerminator c)) name = true
           ∧ getReferenceName context = mret name)
  ∨ ((∀ name, ref (payload context) = str "refs/heads/" ++ name →
              forallb (fun c => negb (isLineTerminator c)) name = false)
     ∧ getReferenceName context = throw TypeError).
Proof.
  unfold getReferenceName.
  destruct (decide (str "refs/heads/" `prefix_of` ref (payload context)))
    as [[name Hname]|Hno].
  - destruct (forallb (fun c => negb (isLineTerminator c)) name) eqn:Hclean.
    + left. exists name. split_and!; [done|done|].
      rewrite Hname, (match_SHORT_REFERENCE_MATCHER_name name Hclean).
      unfold destructure_group. by rewrite lookup_total_singleton.
    + right.
      assert (∀ name', ref (payload context) = str "refs/heads/" ++ name' →
                forallb (fun c => negb (isLineTerminator c)) name' = false)
        as Hall.
      { intros name' Hname'. rewrite Hname in Hname'.
        by apply app_inv_head in Hname' as <-. }
      split; [done|]. by rewrite (match_SHORT_REFERENCE_MATCHER_null _ Hall).
  - right.
    assert (∀ name', ref (payload context) = str "refs/heads/" ++ name' →
              forallb (fun c => negb (isLineTerminator c)) name' = false)
      as Hall.
    { intros name' Hname'. destruct Hno. by exists name'. }
    split; [done|]. by rewrite (match_SHORT_REFERENCE_MATCHER_null _ Hall).
Qed.

Lemma getPullRequestInformation_value octokit query :
  (getPullRequestInformation octokit query).1 =
    match answer octokit findPullRequestInformationAndReviews
            (QueryVariables query) with
    | inl e => inl e
    | inr None => inr None
    | inr (Some data) =>
        match Graph.repository data with
        | None => inl TypeError
        | Some repository =>
            match Graph.pullRequests repository with
            | None => inl TypeError
            | Some pullRequests =>
                match Graph.nodes pullRequests with
                | [] => inr None
                | first :: _ => inr (Some (information_of first))
                end
            end
        end
    end.
Proof.
  unfold getPullRequestInformation. rewrite bind_result.
  unfold graphql. cbn [fst snd].
  destruct (answer octokit _ _) as [e|[[[[[[[|??]]|]]|]]|]]; by cbn.
Qed.

Lemma tryMerge_result octokit information commitMessageHeadline :
  (tryMerge octokit information commitMessageHeadline).1 =
    match mergeableState information, merged information,
          pullRequestState information with
    | MERGEABLE, false, OPEN =>
        match answer octokit
                (mutationSelector (at_index (reviewEdges information) 0))
                (MergeVariables commitMessageHeadline
                   (pullRequestId information)) with
        | inl e => inl e
        | inr _ => inr ()
        end
    | _, _, _ => inr ()
    end.
Proof.
  unfold tryMerge.
  destruct information as [[] [] ? [] ?]; cbn; try done;
    by destruct (answer octokit _ _).
Qed.

(** ** Further properties of the parsers, the fetch and [tryMerge] *)

(** A name the reference parser returns is what follows [refs/heads/] in
    the reference, and holds no line terminator; the parser leaves no
    event behind. *)
Theorem getReferenceName_inverse context name :
  (getReferenceName context).1 = inr name →
  ref (payload context) = str "refs/heads/" ++ name
  ∧ forallb (fun c => negb (isLineTerminator c)) name = true
  ∧ (getReferenceName context).2 = [].
Proof.
  intros Hname.
  destruct (getReferenceName_cases context)
    as [(name' & Href & Hclean & Hret)|[_ Hthrow]].
  - rewrite Hret in Hname |- *. cbn in Hname. by simplify_eq.
  - rewrite Hthrow in Hname. cbn in Hname. discriminate.
Qed.

Lemma getReferenceName_inverse_witness :
  ref (payload (push_by (str "dependabot") (str "refs/heads/feature/x") None))
    = str "refs/heads/" ++ str "feature/x"
  ∧ forallb (fun c => negb (isLineTerminator c)) (str "feature/x") = true
  ∧ (getReferenceName
       (push_by (str "dependabot") (str "refs/heads/feature/x") None)).2 = [].
Proof.
  apply (getReferenceName_inverse
           (push_by (str "dependabot") (str "refs/heads/feature/x") None)
           (str "feature/x")).
  reflexivity.
Defined.

(** [getPullRequestInformation] sends one request, the query with the
    variables it was given, whatever comes back; and when the query is
    rejected it throws what the query was rejected with. *)
Theorem getPullRequestInformation_one_query octokit query :
  (getPullRequestInformation octokit query).2 =
    [Request findPullRequestInformationAndReviews (QueryVariables query)]
  ∧ (∀ e,
       answer octokit findPullRequestInformationAndReviews
         (QueryVariables query) = inl e →
       (getPullRequestInformation octokit query).1 = inl e).
Proof.
  split; [apply getPullRequestInformation_events|].
  intros e He. by rewrite getPullRequestInformation_value, He.
Qed.

Lemma getPullRequestInformation_one_query_witness :
  (getPullRequestInformation (rejecting (str "502"))
     (branch_query (push_by (str "d") (str "r") None) (str "x"))).1
  = inl (RequestError (str "502")).
Proof.
  apply (proj2 (getPullRequestInformation_one_query (rejecting (str "502"))
                  (branch_query (push_by (str "d") (str "r") None) (str "x")))).
  reflexivity.
Defined.

(** [tryMerge] throws only what its mutation is rejected with: it returns
    whenever it skips and whenever the mutation is answered, whatever the
    answer. *)
Theorem tryMerge_throws_only_rejection
  octokit information commitMessageHeadline e :
  (tryMerge octokit information commitMessageHeadline).1 = inl e ↔
    mergeableState information = MERGEABLE
    ∧ merged information = false
    ∧ pullRequestState information = OPEN
    ∧ answer octokit
        (mutationSelector (at_index (reviewEdges information) 0))
        (MergeVariables commitMessageHeadline (pullRequestId information))
      = inl e.
Proof.
  rewrite tryMerge_result.
  destruct information as [[] [] ? [] ?]; cbn;
    try (split; [done|by intros (? & ? & ? & ?)]).
  destruct (answer octokit _ _) as [e'|?].
  - split; [by intros [= ->]|by intros (_ & _ & _ & [= ->])].
  - split; [done|by intros (_ & _ & _ & ?)].
Qed.

(** Every call of [tryMerge] leaves exactly one event: one line at info
    level, or one request; never both, never a warning, never an error. *)
Theorem tryMerge_one_event octokit information commitMessageHeadline :
  ∃ event,
    (tryMerge octokit information commitMessageHeadline).2 = [event]
    ∧ xorb (is_info event) (is_request event) = true.
Proof.
  rewrite tryMerge_events.
  destruct information as [[] [] ? [] ?]; cbn; by eexists.
Qed.

(** ** Further properties of [pushHandle] *)

(** The whole trace of a push by the configured login. *)
Lemma pushHandle_trace octokit context gitHubLogin :
  name (pusher (payload context)) = gitHubLogin →
  (pushHandle octokit context gitHubLogin).2 =
    match (getReferenceName context).1 with
    | inl e => [Failure e]
    | inr name =>
        Request findPullRequestInformationAndReviews
          (QueryVariables (branch_query context name)) ::
        match (getPullRequestInformation octokit
                 (branch_query context name)).1 with
        | inl e => [Failure e]
        | inr None => [Warning UnableToFetch]
        | inr (Some information) =>
            Info (FoundInformation information) ::
            match (getCommitMessageHeadline context).1 with
            | inl e => [Failure e]
            | inr headline =>
                (tryMerge octokit information headline).2
                ++ match (tryMerge octokit information headline).1 with
                   | inl e => [Failure e]
                   | inr _ => []
                   end
            end
        end
    end.
Proof.
  intros Hname. rewrite (pushHandle_events _ _ _ Hname).
  rewrite pushHandle_try_events, pushHandle_try_result.
  destruct (getReferenceName context).1 as [|name]; [done|].
  destruct (getPullRequestInformation _ _).1 as [|[information|]]; try done.
  by destruct (getCommitMessageHeadline context).1.
Qed.

(** A push whose reference is no branch, or a branch with a line
    terminator in its name, is given up before anything is asked of the
    API: the error log is all that happens. *)
Theorem pushHandle_no_branch_no_request octokit context gitHubLogin :
  name (pusher (payload context)) = gitHubLogin →
  (∀ name, ref (payload context) = str "refs/heads/" ++ name →
           forallb (fun c => negb (isLineTerminator c)) name = false) →
  pushHandle octokit context gitHubLogin = (inr (), [Failure TypeError]).
Proof.
  intros Hlogin Href.
  rewrite (surjective_pairing (pushHandle octokit context gitHubLogin)).
  rewrite pushHandle_result, (pushHandle_trace _ _ _ Hlogin).
  destruct (getReferenceName_cases context)
    as [(name & Hname & Hclean & _)|[_ ->]]; [|done].
  by rewrite (Href name Hname) in Hclean.
Qed.

Lemma pushHandle_no_branch_no_request_witness :
  pushHandle (answering (found [node_of (eligible_with [])]))
    (push_by (str "dependabot") (str "refs/tags/v1")
       (Some [ {| message := str "Bump a" |} ]))
    (str "dependabot")
  = (inr (), [Failure TypeError]).
Proof.
  apply pushHandle_no_branch_no_request; [reflexivity|].
  intros name Hname. discriminate Hname.
Defined.

(** Every query [pushHandle] sends is for the pusher that is the
    configured login, for the branch the reference names, in the
    repository of the event. *)
Theorem pushHandle_query_variables octokit context gitHubLogin query :
  Request findPullRequestInformationAndReviews (QueryVariables query)
    ∈ (pushHandle octokit context gitHubLogin).2 →
  name (pusher (payload context)) = gitHubLogin
  ∧ ref (payload context) = str "refs/heads/" ++ referenceName query
  ∧ repositoryName query = repo (context_repo context)
  ∧ repositoryOwner query = owner (context_repo context).
Proof.
  destruct (decide (name (pusher (payload context)) = gitHubLogin))
    as [Hlogin|Hlogin].
  2:{ unfold pushHandle. case_decide; [|done].
      by intros ?%list_elem_of_singleton. }
  rewrite (pushHandle_trace _ _ _ Hlogin).
  destruct (getReferenceName_cases context)
    as [(name & Hname & Hclean & ->)|[_ ->]]; cbn [mret M_ret throw fst];
    [|by intros ?%list_elem_of_singleton].
  intros [Hquery|Hin]%elem_of_cons.
  { by simplify_eq. }
  exfalso. revert Hin.
  destruct (getPullRequestInformation _ _).1 as [|[information|]];
    try (by intros ?%list_elem_of_singleton).
  intros [?|Hin]%elem_of_cons; [done|]. revert Hin.
  destruct (getCommitMessageHeadline context).1 as [|headline];
    [by intros ?%list_elem_of_singleton|].
  rewrite tryMerge_events.
  intros [Hin|Hin]%elem_of_app.
  - destruct information as [[] [] ? [] ?]; cbn in Hin;
      apply list_elem_of_singleton in Hin; by simplify_eq.
  - destruct (tryMerge _ _ _).1; [|by apply elem_of_nil in Hin].
    by apply list_elem_of_singleton in Hin.
Qed.

Lemma pushHandle_query_variables_witness :
  name (pusher (payload (push_by (str "dependabot") (str "refs/heads/x") None)))
    = str "dependabot"
  ∧ ref (payload (push_by (str "dependabot") (str "refs/heads/x") None))
    = str "refs/heads/" ++ str "x"
  ∧ str "merge-me-action"
    = repo (context_repo (push_by (str "dependabot") (str "refs/heads/x") None))
  ∧ str "ridedott"
    = owner (context_repo (push_by (str "dependabot") (str "refs/heads/x") None)).
Proof.
  apply (pushHandle_query_variables (answering (found []))
           (push_by (str "dependabot") (str "refs/heads/x") None)
           (str "dependabot")
           {| referenceName := str "x";
              repositoryName := str "merge-me-action";
              repositoryOwner := str "ridedott" |}).
  vm_compute. left.
Defined.

Lemma getCommitMessageHeadline_value context :
  getCommitMessageHeadline context =
    match first_commit (payload context) with
    | Some c => mret (first_line (message c))
    | None => throw TypeError
    end.
Proof.
  unfold first_commit.
  destruct (commits (payload context)) as [[|c cs]|] eqn:Hcommits; cbn.
  - apply getCommitMessageHeadline_throws. by right.
  - by apply getCommitMessageHeadline_eq with cs.
  - apply getCommitMessageHeadline_throws. by left.
Qed.

(** A push by the configured login to a branch with a pull request, with
    a first commit: the query, the line that reports what was found, then
    what [tryMerge] does with the first pull request of the answer and
    the first line of the first commit, then the error if [tryMerge]
    threw one. *)
Theorem pushHandle_found
  octokit context gitHubLogin branch data repository pullRequests first
  others c :
  name (pusher (payload context)) = gitHubLogin →
  ref (payload context) = str "refs/heads/" ++ branch →
  forallb (fun ch => negb (isLineTerminator ch)) branch = true →
  answer octokit findPullRequestInformationAndReviews
    (QueryVariables (branch_query context branch)) = inr (Some data) →
  Graph.repository data = Some repository →
  Graph.pullRequests repository = Some pullRequests →
  Graph.nodes pullRequests = first :: others →
  first_commit (payload context) = Some c →
  (pushHandle octokit context gitHubLogin).2 =
    [Request findPullRequestInformationAndReviews
       (QueryVariables (branch_query context branch));
     Info (FoundInformation (information_of first))]
    ++ (tryMerge octokit (information_of first) (first_line (message c))).2
    ++ match (tryMerge octokit (information_of first)
                (first_line (message c))).1 with
       | inl e => [Failure e]
       | inr _ => []
       end.
Proof.
  intros Hlogin Href Hclean Hanswer Hrepository HpullRequests Hnodes Hcommit.
  rewrite (pushHandle_trace _ _ _ Hlogin).
  destruct (getReferenceName_cases context)
    as [(branch' & Href' & _ & ->)|[Hno _]].
  2:{ by rewrite (Hno branch Href) in Hclean. }
  rewrite Href in Href'. apply app_inv_head in Href' as <-.
  cbn [mret M_ret fst].
  rewrite getPullRequestInformation_value, Hanswer, Hrepository,
    HpullRequests, Hnodes.
  by rewrite getCommitMessageHeadline_value, Hcommit.
Qed.

Lemma pushHandle_found_witness :
  (pushHandle
     (rejecting_mutations (found [node_of (eligible_with [])]) (str "405"))
     (push_by (str "dependabot") (str "refs/heads/x")
        (Some [ {| message := str "Bump a" |} ]))
     (str "dependabot")).2
  = [Request findPullRequestInformationAndReviews
       (QueryVariables {| referenceName := str "x";
                          repositoryName := str "merge-me-action";
                          repositoryOwner := str "ridedott" |});
     Info (FoundInformation (eligible_with []));
     Request (mergePullRequest Squash)
       (MergeVariables (str "Bump a") (pullRequestId (eligible_with [])));
     Failure (RequestError (str "405"))].
Proof.
  eapply (pushHandle_found
           (rejecting_mutations (found [node_of (eligible_with [])]) (str "405"))
           (push_by (str "dependabot") (str "refs/heads/x")
              (Some [ {| message := str "Bump a" |} ]))
           (str "dependabot") (str "x") _ _ _
           (node_of (eligible_with [])) [] {| message := str "Bump a" |});
    reflexivity.
Defined.

(** A push without a first commit, the list of commits empty or absent,
    merges nothing: when a pull request is found for the branch, the
    handler reports it and then fails on the missing commit, before
    [tryMerge] is entered, eligible or not. *)
Theorem pushHandle_without_commit
  octokit context gitHubLogin branch data repository pullRequests first
  others :
  name (pusher (payload context)) = gitHubLogin →
  ref (payload context) = str "refs/heads/" ++ branch →
  forallb (fun ch => negb (isLineTerminator ch)) branch = true →
  answer octokit findPullRequestInformationAndReviews
    (QueryVariables (branch_query context branch)) = inr (Some data) →
  Graph.repository data = Some repository →
  Graph.pullRequests repository = Some pullRequests →
  Graph.nodes pullRequests = first :: others →
  first_commit (payload context) = None →
  pushHandle octokit context gitHubLogin =
    (inr (),
     [Request findPullRequestInformationAndReviews
        (QueryVariables (branch_query context branch));
      Info (FoundInformation (information_of first));
      Failure TypeError]).
Proof.
  intros Hlogin Href Hclean Hanswer Hrepository HpullRequests Hnodes Hcommit.
  rewrite (surjective_pairing (pushHandle octokit context gitHubLogin)).
  rewrite pushHandle_result, (pushHandle_trace _ _ _ Hlogin).
  destruct (getReferenceName_cases context)
    as [(branch' & Href' & _ & ->)|[Hno _]].
  2:{ by rewrite (Hno branch Href) in Hclean. }
  rewrite Href in Href'. apply app_inv_head in Href' as <-.
  cbn [mret M_ret fst].
  rewrite getPullRequestInformation_value, Hanswer, Hrepository,
    HpullRequests, Hnodes.
  by rewrite getCommitMessageHeadline_value, Hcommit.
Qed.

Lemma pushHandle_without_commit_witness :
  pushHandle (answering (found [node_of (eligible_with [review APPROVED])]))
    (push_by (str "dependabot") (str "refs/heads/x") (Some []))
    (str "dependabot")
  = (inr (),
     [Request findPullRequestInformationAndReviews
        (QueryVariables {| referenceName := str "x";
                           repositoryName := str "merge-me-action";
                           repositoryOwner := str "ridedott" |});
      Info (FoundInformation (eligible_with [review APPROVED]));
      Failure TypeError]).
Proof.
  eapply (pushHandle_without_commit
           (answering (found [node_of (eligible_with [review APPROVED])]))
           (push_by (str "dependabot") (str "refs/heads/x") (Some []))
           (str "dependabot") (str "x") _ _ _
           (node_of (eligible_with [review APPROVED])) []);
    reflexivity.
Defined.

(** When the API answers [null], or with no pull request for the branch,
    the handler logs one warning and returns; the commits of the push are
    not looked at, so it does not matter whether there are any. *)
Theorem pushHandle_not_found octokit context gitHubLogin branch response :
  name (pusher (payload context)) = gitHubLogin →
  ref (payload context) = str "refs/heads/" ++ branch →
  forallb (fun ch => negb (isLineTerminator ch)) branch = true →
  answer octokit findPullRequestInformationAndReviews
    (QueryVariables (branch_query context branch)) = inr response →
  response = None ∨ response = found [] →
  pushHandle octokit context gitHubLogin =
    (inr (),
     [Request findPullRequestInformationAndReviews
        (QueryVariables (branch_query context branch));
      Warning UnableToFetch]).
Proof.
  intros Hlogin Href Hclean Hanswer Hresponse.
  rewrite (surjective_pairing (pushHandle octokit context gitHubLogin)).
  rewrite pushHandle_result, (pushHandle_trace _ _ _ Hlogin).
  destruct (getReferenceName_cases context)
    as [(branch' & Href' & _ & ->)|[Hno _]].
  2:{ by rewrite (Hno branch Href) in Hclean. }
  rewrite Href in Href'. apply app_inv_head in Href' as <-.
  cbn [mret M_ret fst].
  rewrite getPullRequestInformation_value, Hanswer.
  by destruct Hresponse as [-> | ->].
Qed.

Lemma pushHandle_not_found_witness :
  pushHandle (answering None)
    (push_by (str "dependabot") (str "refs/heads/x") None) (str "dependabot")
  = (inr (),
     [Request findPullRequestInformationAndReviews
        (QueryVariables {| referenceName := str "x";
                           repositoryName := str "merge-me-action";
                           repositoryOwner := str "ridedott" |});
      Warning UnableToFetch]).
Proof.
  apply (pushHandle_not_found (answering None)
           (push_by (str "dependabot") (str "refs/heads/x") None)
           (str "dependabot") (str "x") None);
    try reflexivity.
  by left.
Defined.

Lemma getPullRequestInformation_found_inv octokit query information :
  (getPullRequestInformation octokit query).1 = inr (Some information) →
  ∃ data repository pullRequests first others,
    answer octokit findPullRequestInformationAndReviews
      (QueryVariables query) = inr (Some data)
    ∧ Graph.repository data = Some repository
    ∧ Graph.pullRequests repository = Some pullRequests
    ∧ Graph.nodes pullRequests = first :: others
    ∧ information = information_of first.
Proof.
  rewrite getPullRequestInformation_value.
  destruct (answer octokit _ _) as [e|[data|]]; try done.
  destruct (Graph.repository data) as [repository|] eqn:Hrepository;
    try done.
  destruct (Graph.pullRequests repository) as [pullRequests|]
    eqn:HpullRequests; try done.
  destruct (Graph.nodes pullRequests) as [|first others] eqn:Hnodes;
    try done.
  intros [= <-]. by exists data, repository, pullRequests, first, others.
Qed.

(** A request with merge variables is sent by [pushHandle] only for a
    push by the configured login, only to the first pull request the API
    lists for the pushed branch, and only when that one is mergeable, not
    merged and open; it carries that pull request's id, the first line of
    the first commit, and the document selected by its first review. *)
Theorem pushHandle_merges_only_first_eligible
  octokit context gitHubLogin document headline pullRequestId :
  Request document (MergeVariables headline pullRequestId)
    ∈ (pushHandle octokit context gitHubLogin).2 →
  name (pusher (payload context)) = gitHubLogin
  ∧ ∃ branch data repository pullRequests first others c,
      ref (payload context) = str "refs/heads/" ++ branch
      ∧ answer octokit findPullRequestInformationAndReviews
          (QueryVariables (branch_query context branch)) = inr (Some data)
      ∧ Graph.repository data = Some repository
      ∧ Graph.pullRequests repository = Some pullRequests
      ∧ Graph.nodes pullRequests = first :: others
      ∧ Graph.mergeable first = MERGEABLE
      ∧ Graph.merged first = false
      ∧ Graph.state first = OPEN
      ∧ pullRequestId = Graph.id first
      ∧ first_commit (payload context) = Some c
      ∧ headline = first_line (message c)
      ∧ document =
          mutationSelector (at_index (Graph.edges (Graph.reviews first)) 0).
Proof.
  destruct (decide (name (pusher (payload context)) = gitHubLogin))
    as [Hlogin|Hlogin].
  2:{ unfold pushHandle. case_decide; [|done].
      by intros ?%list_elem_of_singleton. }
  rewrite (pushHandle_trace _ _ _ Hlogin). intros Hsent.
  split; [done|]. revert Hsent.
  destruct (getReferenceName_cases context)
    as [(branch & Href & Hclean & ->)|[_ ->]]; cbn [mret M_ret throw fst];
    [|by intros ?%list_elem_of_singleton].
  intros [?|Hin]%elem_of_cons; [done|]. revert Hin.
  destruct (getPullRequestInformation _ _).1 as [|[information|]] eqn:Hfound;
    try (by intros ?%list_elem_of_singleton).
  apply getPullRequestInformation_found_inv in Hfound
    as (data & repository & pullRequests & first & others
        & Hanswer & Hrepository & HpullRequests & Hnodes & ->).
  intros [?|Hin]%elem_of_cons; [done|]. revert Hin.
  rewrite getCommitMessageHeadline_value.
  destruct (first_commit (payload context)) as [c|] eqn:Hcommit;
    cbn [mret M_ret throw fst]; [|by intros ?%list_elem_of_singleton].
  rewrite tryMerge_events. intros Hin.
  exists branch, data, repository, pullRequests, first, others, c.
  apply elem_of_app in Hin as [Hin|Hin].
  - destruct first as [? [] [] ? []]; cbn in Hin;
      apply list_elem_of_singleton in Hin; simplify_eq; by split_and!.
  - destruct (tryMerge _ _ _).1; [|by apply elem_of_nil in Hin].
    by apply list_elem_of_singleton in Hin.
Qed.

Lemma pushHandle_merges_only_first_eligible_witness :
  name (pusher (payload
          (push_by (str "dependabot") (str "refs/heads/x")
             (Some [ {| message := str "Bump a" |} ]))))
    = str "dependabot"
  ∧ ∃ branch data repository pullRequests first others c,
      ref (payload
             (push_by (str "dependabot") (str "refs/heads/x")
                (Some [ {| message := str "Bump a" |} ])))
        = str "refs/heads/" ++ branch
      ∧ answer (answering (found [node_of (eligible_with [review APPROVED])]))
          findPullRequestInformationAndReviews
          (QueryVariables
             (branch_query
                (push_by (str "dependabot") (str "refs/heads/x")
                   (Some [ {| message := str "Bump a" |} ]))
                branch)) = inr (Some data)
      ∧ Graph.repository data = Some repository
      ∧ Graph.pullRequests repository = Some pullRequests
      ∧ Graph.nodes pullRequests = first :: others
      ∧ Graph.mergeable first = MERGEABLE
      ∧ Graph.merged first = false
      ∧ Graph.state first = OPEN
      ∧ pullRequestId (eligible_with [review APPROVED]) = Graph.id first
      ∧ first_commit
          (payload
             (push_by (str "dependabot") (str "refs/heads/x")
                (Some [ {| message := str "Bump a" |} ]))) = Some c
      ∧ str "Bump a" = first_line (message c)
      ∧ mergePullRequest MergeCommit =
          mutationSelector (at_index (Graph.edges (Graph.reviews first)) 0).
Proof.
  apply (pushHandle_merges_only_first_eligible
           (answering (found [node_of (eligible_with [review APPROVED])]))
           (push_by (str "dependabot") (str "refs/heads/x")
              (Some [ {| message := str "Bump a" |} ]))
           (str "dependabot") (mergePullRequest MergeCommit) (str "Bump a")
           (pullRequestId (eligible_with [review APPROVED]))).
  vm_compute. do 2 right. left.
Defined.

(** What [pushHandle] asks of the API in one run is nothing, or the query
    alone, or the query and then one request with merge variables: never
    two queries, never two mutations, never a mutation before the query. *)
Theorem pushHandle_requests octokit context gitHubLogin :
  List.filter is_request (pushHandle octokit context gitHubLogin).2 = []
  ∨ ∃ query,
      List.filter is_request (pushHandle octokit context gitHubLogin).2 =
        [Request findPullRequestInformationAndReviews (QueryVariables query)]
      ∨ ∃ document headline pullRequestId,
          List.filter is_request (pushHandle octokit context gitHubLogin).2 =
            [Request findPullRequestInformationAndReviews
               (QueryVariables query);
             Request document (MergeVariables headline pullRequestId)].
Proof.
  destruct (decide (name (pusher (payload context)) = gitHubLogin))
    as [Hlogin|Hlogin].
  2:{ left. unfold pushHandle. by case_decide. }
  rewrite (pushHandle_trace _ _ _ Hlogin).
  destruct (getReferenceName context).1 as [|branch]; [by left|].
  right. exists (branch_query context branch). cbn [List.filter is_request].
  destruct (getPullRequestInformation _ _).1 as [|[information|]];
    try (by left).
  cbn [List.filter is_request].
  destruct (getCommitMessageHeadline context).1 as [|headline]; [by left|].
  rewrite tryMerge_events, List.filter_app.
  assert (List.filter is_request
            match (tryMerge octokit information headline).1 with
            | inl e => [Failure e]
            | inr _ => []
            end = []) as -> by by destruct (tryMerge _ _ _).1.
  rewrite app_nil_r.
  destruct information as [[] [] ? [] ?]; cbn; try (by left).
  right. by eexists _, _, _.
Qed.

(** [pushHandle] logs at error level at most once, as the last thing it
    does, and only the error its [try] block threw. *)
Theorem pushHandle_error_log octokit context gitHubLogin :
  length (List.filter is_failure
            (pushHandle octokit context gitHubLogin).2) ≤ 1
  ∧ (∀ e,
       Failure e ∈ (pushHandle octokit context gitHubLogin).2 →
       name (pusher (payload context)) = gitHubLogin
       ∧ (pushHandle_try octokit context).1 = inl e
       ∧ last (pushHandle octokit context gitHubLogin).2 = Some (Failure e)).
Proof.
  destruct (decide (name (pusher (payload context)) = gitHubLogin))
    as [Hlogin|Hlogin].
  2:{ unfold pushHandle. case_decide; [|done]. split; [cbn; lia|].
      by intros e ?%list_elem_of_singleton. }
  assert (List.filter is_failure (pushHandle_try octokit context).2 = [])
    as Hquiet.
  { rewrite pushHandle_try_events.
    destruct (getReferenceName context).1 as [|branch]; [done|].
    cbn [List.filter is_failure].
    destruct (getPullRequestInformation _ _).1 as [|[information|]];
      try done.
    cbn [List.filter is_failure].
    destruct (getCommitMessageHeadline context).1 as [|headline]; [done|].
    rewrite tryMerge_events.
    by destruct information as [[] [] ? [] ?]. }
  rewrite (pushHandle_events _ _ _ Hlogin). split.
  - rewrite List.filter_app, Hquiet.
    destruct (pushHandle_try octokit context).1; cbn; lia.
  - intros e [Hin|Hin]%elem_of_app.
    + exfalso. apply list_elem_of_In in Hin.
      assert (In (Failure e)
                (List.filter is_failure (pushHandle_try octokit context).2))
        as Hfiltered by by apply List.filter_In.
      by rewrite Hquiet in Hfiltered.
    + destruct (pushHandle_try octokit context).1 as [e'|];
        [|by apply elem_of_nil in Hin].
      apply list_elem_of_singleton in Hin as [= ->].
      split_and!; [done|done|]. by rewrite last_snoc.
Qed.

Lemma pushHandle_error_log_witness :
  name (pusher (payload (push_by (str "dependabot") (str "refs/tags/v1") None)))
    = str "dependabot"
  ∧ (pushHandle_try (answering None)
       (push_by (str "dependabot") (str "refs/tags/v1") None)).1
    = inl TypeError
  ∧ last (pushHandle (answering None)
            (push_by (str "dependabot") (str "refs/tags/v1") None)
            (str "dependabot")).2
    = Some (Failure TypeError).
Proof.
  apply (proj2 (pushHandle_error_log (answering None)
                  (push_by (str "dependabot") (str "refs/tags/v1") None)
                  (str "dependabot"))).
  vm_compute. left.
Defined.

(** Of the event, [pushHandle] reads the pusher's name, the reference, the
    repository and the first commit: two pushes that agree on these are
    handled alike, whatever other commits they carry. *)
Theorem pushHandle_reads octokit context context' gitHubLogin :
  name (pusher (payload context)) = name (pusher (payload context')) →
  ref (payload context) = ref (payload context') →
  context_repo context = context_repo context' →
  first_commit (payload context) = first_commit (payload context') →
  pushHandle octokit context gitHubLogin =
  pushHandle octokit context' gitHubLogin.
Proof.
  intros Hname Href Hrepo Hcommit.
  rewrite (surjective_pairing (pushHandle octokit context gitHubLogin)),
    (surjective_pairing (pushHandle octokit context' gitHubLogin)).
  rewrite !pushHandle_result. f_equal.
  destruct (decide (name (pusher (payload context)) = gitHubLogin))
    as [Hlogin|Hlogin].
  - rewrite (pushHandle_trace _ _ _ Hlogin).
    rewrite Hname in Hlogin. rewrite (pushHandle_trace _ _ _ Hlogin).
    rewrite !getCommitMessageHeadline_value, Hcommit.
    unfold getReferenceName, branch_query. by rewrite Href, Hrepo.
  - unfold pushHandle. rewrite <-Hname. by case_decide.
Qed.

Lemma pushHandle_reads_witness :
  pushHandle (answering (found [node_of (eligible_with [])]))
    (push_by (str "dependabot") (str "refs/heads/x")
       (Some [ {| message := str "Bump a" |}; {| message := str "Fix b" |} ]))
    (str "dependabot")
  = pushHandle (answering (found [node_of (eligible_with [])]))
      (push_by (str "dependabot") (str "refs/heads/x")
         (Some [ {| message := str "Bump a" |} ]))
      (str "dependabot").
Proof.
  apply pushHandle_reads; reflexivity.
Defined.

(** ** The entry point *)

Section MainProperties.

Variables checkSuiteHandle pullRequestHandle :
  GitHub → Context → jsstring → M unit.


(** An event that is none of [check_suite], [pull_request] and [push] is
    answered with the line that names the login and one warning: no
    handler runs, nothing is asked of the API, and the run does not
    fail. *)
Theorem run_unknown_event eventName octokit context GITHUB_LOGIN :
  eventName ≠ str "check_suite" →
  eventName ≠ str "pull_request" →
  eventName ≠ str "push" →
  run checkSuiteHandle pullRequestHandle eventName octokit context
    GITHUB_LOGIN
  = [Enabled GITHUB_LOGIN; UnknownEvent eventName].
Proof.
  intros Hcheck Hpull Hpush. unfold run, main.
  by repeat (case_decide; [done|]).
Qed.

End MainProperties.

Lemma run_unknown_event_witness :
  run (fun _ _ _ => throw TypeError) (fun _ _ _ => throw TypeError)
    (str "Push") (rejecting (str "502"))
    (push_by (str "dependabot") (str "refs/heads/x") None) (str "dependabot")
  = [Enabled (str "dependabot"); UnknownEvent (str "Push")].
Proof.
  apply run_unknown_event; discriminate.
Defined.
